(** * Seamless Expressive demo: the orchestration code of [app.py]

    A shallow embedding of the request handler [run], of the audio
    preprocessor [preprocess_audio], of [normalize_fbank] and of the
    language tables, followed by the properties of the specification.

    Python values are modelled as follows.
    - [int] is [Z]; [str] is [string]; the contents of a file is a list of
      bytes.
    - A [dict] with string keys that is only read by key is a [gmap string];
      [LANGUAGE_CODE_TO_NAME], whose [items()] are iterated, is the list
      of its items in insertion order.
    - A dense tensor is its shape together with its indexing function.
    - The external collaborators (torchaudio, fairseq2, the translator, the
      vocoder, [tempfile]) are the fields of the class [Externals]: what they
      compute is not part of this repository.
    - A statement that has effects is a function from the world (the file
      system and the log of observable events) to an outcome and a new world;
      an exception keeps the effects made before it was raised. *)

From Stdlib Require Import QArith.
From stdpp Require Import gmap strings list fin_maps pretty numbers.

Open Scope Z_scope.

(** ** Language tables *)

Module Languages.

(** [TARGET_LANGUAGE_NAMES], the choices of the dropdown (app.py, 183-190). *)
Definition TARGET_LANGUAGE_NAMES : list string :=
  [ "English"; "French"; "German"; "Italian"; "Mandarin Chinese"; "Spanish" ]%string.

(** The dict comprehension [{v: k for k, v in d.items()}] (app.py, 66):
    the items are visited in insertion order and a later item replaces an
    earlier one that has the same value [v]. *)
Definition invert_dict (items : list (string * string)) : gmap string string :=
  foldl (λ m kv, <[kv.2 := kv.1]> m) ∅ items.

Definition LANGUAGE_NAME_TO_CODE (LANGUAGE_CODE_TO_NAME : list (string * string))
  : gmap string string :=
  invert_dict LANGUAGE_CODE_TO_NAME.

(** [d[k]] on the dict whose items are [items]. *)
Definition dict_get (items : list (string * string)) (k : string) : option string :=
  (list_to_map items : gmap string string) !! k.

(** Modelled from the spec: the table [LANGUAGE_CODE_TO_NAME] is imported
    from [utils.py], which is not part of the sources at hand.  The spec
    describes it as a fixed bidirectional mapping in which every display name
    offered by the interface has exactly one corresponding code.  As a Python
    dict its keys (the codes) are pairwise distinct; bidirectional means that
    its values (the names) are pairwise distinct too; and every offered name
    occurs among its values. *)
Definition code_to_name_table_ok (items : list (string * string)) : Prop :=
  NoDup items.*1 ∧ NoDup items.*2 ∧ TARGET_LANGUAGE_NAMES ⊆ items.*2.

(** A table of the described shape, used to run the definitions. *)
Definition demo_table : list (string * string) :=
  [ ("eng", "English"); ("fra", "French"); ("deu", "German");
    ("ita", "Italian"); ("cmn", "Mandarin Chinese"); ("spa", "Spanish") ]%string.

End Languages.

(** ** Tensors *)

Module Tensor.

(** A vector: its length and its indexing function. Entries outside
    [0 .. len) are not part of the tensor. *)
Record Tensor1 (A : Type) := mkTensor1 { len : Z; at1 : Z → A }.

(** A matrix of shape [(shape0, shape1)]; its entries are those at
    [(i, j)] with [0 <= i < shape0] and [0 <= j < shape1]. A waveform is
    channels x samples, a filter bank is frames x mel bins. *)
Record Tensor2 (A : Type) :=
  mkTensor2 { shape0 : Z; shape1 : Z; at2 : Z → Z → A }.

Arguments mkTensor1 {A} _ _.
Arguments len {A} _.
Arguments at1 {A} _ _.
Arguments mkTensor2 {A} _ _ _.
Arguments shape0 {A} _.
Arguments shape1 {A} _.
Arguments at2 {A} _ _ _.

(** The number of entries that the slice [[:stop]] keeps out of [n]
    (Python: a negative [stop] counts from the end). The slice starts at 0,
    so the entries kept are the first ones. *)
Definition slice_stop (n stop : Z) : Z :=
  if decide (stop < 0) then Z.max 0 (n + stop) else Z.min stop n.

(** [t[:, :stop]] *)
Definition slice_cols {A} (t : Tensor2 A) (stop : Z) : Tensor2 A :=
  {| shape0 := shape0 t; shape1 := slice_stop (shape1 t) stop; at2 := at2 t |}.

(** Broadcasting of two sizes of the same dimension: equal, or one is 1. *)
Definition broadcast_dim (n m : Z) : option Z :=
  if decide (n = m) then Some n
  else if decide (n = 1) then Some m
  else if decide (m = 1) then Some n
  else None.

(** The index read in a dimension of size [n] for the output index [j]. *)
Definition broadcast_idx (n j : Z) : Z := if decide (n = 1) then 0 else j.

(** [t.op(v)] for a matrix [t] and a vector [v], which is broadcast along
    dimension 0; [None] when the shapes are incompatible (torch raises). *)
Definition broadcast_rows {A} (op : A → A → A) (t : Tensor2 A) (v : Tensor1 A)
  : option (Tensor2 A) :=
  d ← broadcast_dim (shape1 t) (len v);
  Some {| shape0 := shape0 t;
          shape1 := d;
          at2 := λ i j, op (at2 t i (broadcast_idx (shape1 t) j))
                           (at1 v (broadcast_idx (len v) j)) |}.

(** The entries of column [j], in the order of dimension 0. *)
Definition column {A} (t : Tensor2 A) (j : Z) : list A :=
  (λ i, at2 t i j) <$> seqZ 0 (shape0 t).

(** A reduction along dimension 0: one result per column. *)
Definition reduce_dim0 {A} (f : list A → A) (t : Tensor2 A) : Tensor1 A :=
  {| len := shape1 t; at1 := λ j, f (column t j) |}.

End Tensor.

(** ** Exceptions and outcomes *)

Module Exn.

(** The external call of [run] that failed. *)
Inductive Stage :=
  | AudioLoad        (* torchaudio.load *)
  | ByteDecode       (* decode_audio *)
  | FbankConvert     (* convert_to_fbank *)
  | Collate          (* collate *)
  | Translate        (* translator.predict *)
  | Synthesize.      (* pretssel_generator.predict *)

Inductive exn :=
  | KeyError (key : string)
  | FileNotFoundError (path : string)
  | IndexError
  | TypeError
  | RuntimeError              (* incompatible shapes in a tensor operation *)
  | StageError (s : Stage).   (* the error of an external call, unchanged *)

Inductive outcome (A : Type) :=
  | Ok (a : A)
  | Raise (e : exn).

Arguments Ok {A} _.
Arguments Raise {A} _.

#[export] Instance stage_eq_dec : EqDecision Stage.
Proof. solve_decision. Defined.

#[export] Instance exn_eq_dec : EqDecision exn.
Proof. solve_decision. Defined.

#[export] Instance outcome_ret : MRet outcome := λ A a, Ok a.

#[export] Instance outcome_bind : MBind outcome := λ A B k m,
  match m with
  | Ok a => k a
  | Raise e => Raise e
  end.

#[export] Instance outcome_fmap : FMap outcome := λ A B f m,
  match m with
  | Ok a => Ok (f a)
  | Raise e => Raise e
  end.

(** An optional value, or the exception [e]. *)
Definition or_raise {A} (e : exn) (o : option A) : outcome A :=
  match o with
  | Some a => Ok a
  | None => Raise e
  end.

(** [d[key]] *)
Definition dict_lookup {V} (d : gmap string V) (key : string) : outcome V :=
  or_raise (KeyError key) (d !! key).

(** [l[i]] for a list and an index that is not negative. *)
Definition list_index {A} (l : list A) (i : nat) : outcome A :=
  or_raise IndexError (l !! i).

End Exn.

(** ** The values exchanged with the imported libraries *)

Module Values.
Import Tensor.

Abbreviation bytes := (list Byte.byte).

(** An entry of the example dict of fairseq2: the filter bank, or one of the
    other entries (waveform, sample rate, format), which [app.py] never
    inspects. *)
Inductive value (scalar opaque : Type) :=
  | VTensor (t : Tensor2 scalar)
  | VOpaque (o : opaque).

Arguments VTensor {scalar opaque} _.
Arguments VOpaque {scalar opaque} _.

(** The two arguments that [app.py] gives to [SequenceGeneratorOptions];
    the other options keep the defaults of the library. *)
Record SequenceGeneratorOptions := mkOpts {
  beam_size : Z;
  soft_max_seq_len : option (Z * Z)
}.

(** The arguments of [translator.predict] as written at the call
    (app.py, 157-167). *)
Record PredictArgs (seqdata : Type) := mkPredictArgs {
  input : seqdata;
  task_str : string;
  tgt_lang : string;
  src_lang : option string;
  text_generation_opts : SequenceGeneratorOptions;
  unit_generation_opts : SequenceGeneratorOptions;
  unit_generation_ngram_filtering : bool;
  duration_factor : Q;
  prosody_encoder_input : seqdata
}.

Arguments mkPredictArgs {seqdata} _ _ _ _ _ _ _ _ _.
Arguments input {seqdata} _.
Arguments task_str {seqdata} _.
Arguments tgt_lang {seqdata} _.
Arguments src_lang {seqdata} _.
Arguments text_generation_opts {seqdata} _.
Arguments unit_generation_opts {seqdata} _.
Arguments unit_generation_ngram_filtering {seqdata} _.
Arguments duration_factor {seqdata} _.
Arguments prosody_encoder_input {seqdata} _.

(** The second result of [translator.predict]; [run] reads its [units]. *)
Record UnitOutput (unit_seq : Type) := mkUnitOutput { units : unit_seq }.

Arguments mkUnitOutput {unit_seq} _.
Arguments units {unit_seq} _.

(** The result of [pretssel_generator.predict]: one tensor per example of the
    batch, indexed again by [run] along its first dimension, and the sample
    rate of the synthesizer. *)
Record SpeechOutput (sample : Type) := mkSpeechOutput {
  audio_wavs : list (list (Tensor2 sample));
  sample_rate : Z
}.

Arguments mkSpeechOutput {sample} _ _.
Arguments audio_wavs {sample} _.
Arguments sample_rate {sample} _.

(** What [app.py] imports and constructs once at start-up. Each function is
    the input-output behaviour of a library call for the loaded weights and
    assets; [None] is a call that raises. Resampling and encoding are total:
    the only failure of the codec that the pipeline provides for is that of
    decoding. *)
Class Environment := {
  sample : Type;      (* an entry of a waveform tensor *)
  scalar : Type;      (* an entry of a filter bank (float16 or float32) *)
  opaque : Type;      (* an entry of the example dict other than a filter bank *)
  seqdata : Type;     (* a collated (batched) entry *)
  unit_seq : Type;    (* the discrete units of the translation *)
  (* torch arithmetic on [scalar] *)
  fsub : scalar → scalar → scalar;
  fdiv : scalar → scalar → scalar;
  fmean : list scalar → scalar;
  fstd : list scalar → scalar;
  (* load_gcmvn_stats(VOCODER_NAME), as tensors (app.py, 83-85) *)
  gcmvn_mean : Tensor1 scalar;
  gcmvn_std : Tensor1 scalar;
  (* utils.LANGUAGE_CODE_TO_NAME: its items *)
  LANGUAGE_CODE_TO_NAME : list (string * string);
  (* torchaudio: decoding the bytes of the file at a path, resampling, and
     the bytes that saving at a path writes *)
  torchaudio_load : string → bytes → option (Tensor2 sample * Z);
  torchaudio_resample : Tensor2 sample → Z → Z → Tensor2 sample;
  torchaudio_save : string → Tensor2 sample → Z → bytes;
  (* fairseq2 *)
  decode_audio : bytes → option (gmap string (value scalar opaque));
  convert_to_fbank :
    gmap string (value scalar opaque) → option (gmap string (value scalar opaque));
  collate : gmap string (value scalar opaque) → option (gmap string seqdata);
  (* the models *)
  translator_predict :
    PredictArgs seqdata → option (list string * UnitOutput unit_seq);
  pretssel_generator_predict :
    unit_seq → string → seqdata → option (SpeechOutput sample);
  (* the name that tempfile picks for a suffix, given the existing files *)
  NamedTemporaryFile : string → gmap string bytes → string
}.

End Values.

(** ** Effects *)

Module Effects.
Import Tensor Exn Values.

Section WithEnvironment.
Context `{Environment}.

(** What a request makes observable besides the files. *)
Inductive Event :=
  | Warning (message : string)                 (* gr.Warning *)
  | Saved (path : string) (sample_rate : Z)    (* torchaudio.save *)
  | TranslatorCall (args : PredictArgs seqdata)
  | VocoderCall (tgt_lang : string)
  | TempFileCreated (name : string).

(** The result of a statement: how it ended, the files it leaves and the
    events it emitted, oldest first. *)
Record Result (A : Type) := mkResult {
  returned : outcome A;
  files : gmap string bytes;
  events : list Event
}.

Arguments returned {A} _.
Arguments files {A} _.
Arguments events {A} _.
Arguments mkResult {A} _ _ _.

Definition M (A : Type) : Type := gmap string bytes → Result A.

Definition ret {A} (a : A) : M A :=
  λ fs, {| returned := Ok a; files := fs; events := [] |}.

Definition raise {A} (e : exn) : M A :=
  λ fs, {| returned := Raise e; files := fs; events := [] |}.

(** Sequencing: an exception ends the sequence and keeps the files and
    events produced so far. *)
Definition bind {A B} (m : M A) (k : A → M B) : M B :=
  λ fs,
    let r := m fs in
    match returned r with
    | Ok a =>
        let r' := k a (files r) in
        {| returned := returned r';
           files := files r';
           events := events r ++ events r' |}
    | Raise e =>
        {| returned := Raise e; files := files r; events := events r |}
    end.

(** A computation without effects. *)
Definition lift {A} (o : outcome A) : M A :=
  λ fs, {| returned := o; files := fs; events := [] |}.

Definition emit (e : Event) : M unit :=
  λ fs, {| returned := Ok tt; files := fs; events := [e] |}.

(** An external call that reads no file: its error is raised as it is. *)
Definition call {A} (s : Stage) (o : option A) : M A :=
  lift (or_raise (StageError s) o).

(** [r] with the events [es] emitted before it. *)
Definition prepend {A} (es : list Event) (r : Result A) : Result A :=
  {| returned := returned r; files := files r; events := es ++ events r |}.

#[export] Instance M_ret : MRet M := @ret.
#[export] Instance M_bind : MBind M := λ A B k m, bind m k.

End WithEnvironment.

Arguments returned {_ A} _.
Arguments files {_ A} _.
Arguments events {_ A} _.
Arguments mkResult {_ A} _ _ _.

End Effects.

(** ** app.py *)

Module App.
Import Languages Tensor Exn Values Effects.

Section WithEnvironment.
Context `{Environment}.

(** app.py, 66 *)
Definition LANGUAGE_NAME_TO_CODE : gmap string string :=
  Languages.LANGUAGE_NAME_TO_CODE LANGUAGE_CODE_TO_NAME.

(** app.py, 95-97 *)
Definition text_generation_opts : SequenceGeneratorOptions :=
  {| beam_size := 5; soft_max_seq_len := None |}.

Definition unit_generation_opts : SequenceGeneratorOptions :=
  {| beam_size := 5; soft_max_seq_len := Some (25, 50) |}.

(** app.py, 129-130 *)
Definition AUDIO_SAMPLE_RATE : Z := 44100.
Definition MAX_INPUT_AUDIO_LENGTH : Z := 60.

(** [torch.std_mean(t, dim=0)]: the pair (std, mean) of every column. *)
Definition std_mean_dim0 (t : Tensor2 scalar) : Tensor1 scalar * Tensor1 scalar :=
  (reduce_dim0 fstd t, reduce_dim0 fmean t).

Definition subtract (t : Tensor2 scalar) (v : Tensor1 scalar) : outcome (Tensor2 scalar) :=
  or_raise RuntimeError (broadcast_rows fsub t v).

Definition divide (t : Tensor2 scalar) (v : Tensor1 scalar) : outcome (Tensor2 scalar) :=
  or_raise RuntimeError (broadcast_rows fdiv t v).

(** A dict entry used as a tensor. *)
Definition as_tensor (v : value scalar opaque) : outcome (Tensor2 scalar) :=
  match v with
  | VTensor t => Ok t
  | VOpaque _ => Raise TypeError
  end.

(** app.py, 118-123. Neither [subtract] nor [divide] works in place: the
    local [fbank] is still the filter bank of the input when line 122 reads
    it, after line 121 has replaced the entry of the dict. *)
Definition normalize_fbank (data : gmap string (value scalar opaque))
  : outcome (gmap string (value scalar opaque)) :=
  fbank ← dict_lookup data "fbank" ≫= as_tensor;
  let '(std, mean) := std_mean_dim0 fbank in
  centered ← subtract fbank mean;
  standardized ← divide centered std;
  let data := <["fbank" := VTensor standardized]> data in
  gcentered ← subtract fbank gcmvn_mean;
  gstandardized ← divide gcentered gcmvn_std;
  let data := <["gcmvn_fbank" := VTensor gstandardized]> data in
  Ok data.

(** [torchaudio.load(path)]: the file must exist and decode. *)
Definition load_file (path : string) : M (Tensor2 sample * Z) :=
  λ fs, call AudioLoad (fs !! path ≫= torchaudio_load path) fs.

(** [torchaudio.save(path, arr, sample_rate=sr)] replaces the file. *)
Definition save_file (path : string) (arr : Tensor2 sample) (sr : Z) : M unit :=
  λ fs, {| returned := Ok tt;
           files := <[path := torchaudio_save path arr sr]> fs;
           events := [Saved path sr] |}.

(** [pathlib.Path(path).open("rb")] followed by [read()]. *)
Definition read_file (path : string) : M bytes :=
  λ fs, lift (or_raise (FileNotFoundError path) (fs !! path)) fs.

(** [tempfile.NamedTemporaryFile(suffix=suffix, delete=False)]: a new, empty
    file, which stays when the [with] block ends. *)
Definition create_temp_file (suffix : string) : M string :=
  λ fs, let name := NamedTemporaryFile suffix fs in
        {| returned := Ok name;
           files := <[name := []]> fs;
           events := [TempFileCreated name] |}.

(** The f-string of line 139. *)
Definition too_long_message : string :=
  "Input audio is too long. Only the first " +:+ pretty MAX_INPUT_AUDIO_LENGTH
  +:+ " seconds is used.".

(** app.py, 133-140. [int] of the product of two ints is that product. *)
Definition preprocess_audio (input_audio_path : string) : M unit :=
  '(arr, org_sr) ← load_file input_audio_path;
  let new_arr := torchaudio_resample arr org_sr AUDIO_SAMPLE_RATE in
  let max_length := MAX_INPUT_AUDIO_LENGTH * AUDIO_SAMPLE_RATE in
  new_arr ←
    (if decide (shape1 new_arr > max_length) then
       let new_arr := slice_cols new_arr max_length in
       _ ← emit (Warning too_long_message);
       mret new_arr
     else mret new_arr);
  save_file input_audio_path new_arr AUDIO_SAMPLE_RATE.

(** app.py, 143-180. The conversion [.to(torch.float32).cpu()] of line 177
    changes the type and the device of the entries, which are not modelled:
    it is the identity here; [str] of a string is that string. *)
Definition run (input_audio_path target_language : string) : M (string * string) :=
  target_language_code ← lift (dict_lookup LANGUAGE_NAME_TO_CODE target_language);
  _ ← preprocess_audio input_audio_path;
  block ← read_file input_audio_path;
  example ← call ByteDecode (decode_audio block);
  example ← call FbankConvert (convert_to_fbank example);
  example ← lift (normalize_fbank example);
  example ← call Collate (collate example);
  prosody_encoder_input ← lift (dict_lookup example "gcmvn_fbank");
  fbank ← lift (dict_lookup example "fbank");
  let args :=
    {| input := fbank;
       task_str := "S2ST";
       tgt_lang := target_language_code;
       src_lang := None;
       Values.text_generation_opts := text_generation_opts;
       Values.unit_generation_opts := unit_generation_opts;
       unit_generation_ngram_filtering := false;
       duration_factor := 1%Q;
       Values.prosody_encoder_input := prosody_encoder_input |} in
  _ ← emit (TranslatorCall args);
  '(text_output, unit_output) ← call Translate (translator_predict args);
  _ ← emit (VocoderCall target_language_code);
  speech_output ←
    call Synthesize
      (pretssel_generator_predict (units unit_output) target_language_code
         prosody_encoder_input);
  f_name ← create_temp_file ".wav";
  wav ← lift (list_index (audio_wavs speech_output) 0 ≫= λ t, list_index t 0);
  _ ← save_file f_name wav (sample_rate speech_output);
  text ← lift (list_index text_output 0);
  mret (f_name, text).

End WithEnvironment.

End App.

(** ** Contracts of the libraries that the properties refer to *)

Module Contracts.
Import Tensor Values.

(** The least integer that is not below [x / d], for [0 < d]. *)
Definition ceil_div (x d : Z) : Z := - ((- x) / d).

(** The shape of the result of [torchaudio.functional.resample] for positive
    frequencies, as its documentation gives it: the channels are kept and
    [length] samples become [ceil(new_freq * length / orig_freq)]. *)
Definition resample_shape_law `{Environment} : Prop :=
  ∀ (arr : Tensor2 sample) (orig_freq new_freq : Z),
    0 < orig_freq → 0 < new_freq →
    shape0 (torchaudio_resample arr orig_freq new_freq) = shape0 arr
    ∧ shape1 (torchaudio_resample arr orig_freq new_freq)
      = ceil_div (new_freq * shape1 arr) orig_freq.

End Contracts.

(** ** A small environment on which the definitions run

    Audio is silence: a file is a header of nine bytes (the channels, then
    the sample rate and the number of samples, four bytes each, least
    significant first). The models are arithmetic on frame counts. *)

Module Demo.
Import Languages Tensor Exn Values Effects Contracts.

Definition byte_of_Z (z : Z) : Byte.byte :=
  default Byte.x00 (Byte.of_N (Z.to_N (z mod 256))).

Fixpoint le_bytes (k : nat) (z : Z) : bytes :=
  match k with
  | O => []
  | S k => byte_of_Z z :: le_bytes k (z / 256)
  end.

Fixpoint le_value (bs : bytes) : Z :=
  match bs with
  | [] => 0
  | b :: bs => Z.of_N (Byte.to_N b) + 256 * le_value bs
  end.

Definition silence (channels samples : Z) : Tensor2 Z :=
  {| shape0 := channels; shape1 := samples; at2 := λ _ _, 0 |}.

Definition encode (arr : Tensor2 Z) (sr : Z) : bytes :=
  byte_of_Z (shape0 arr) :: le_bytes 4 sr ++ le_bytes 4 (shape1 arr).

Definition decode (bs : bytes) : option (Tensor2 Z * Z) :=
  if decide (length bs = 9%nat) then
    let sr := le_value (take 4 (drop 1 bs)) in
    if decide (0 < sr) then
      Some (silence (le_value (take 1 bs)) (le_value (drop 5 bs)), sr)
    else None
  else None.

Definition resample (arr : Tensor2 Z) (orig_freq new_freq : Z) : Tensor2 Z :=
  {| shape0 := shape0 arr;
     shape1 := ceil_div (new_freq * shape1 arr) orig_freq;
     at2 := λ c i, at2 arr c (i * orig_freq / new_freq) |}.

Definition sum_list (l : list Z) : Z := foldr Z.add 0 l.

Definition mean (l : list Z) : Z := sum_list l / Z.of_nat (length l).

Definition std (l : list Z) : Z :=
  Z.sqrt (sum_list ((λ x, (x - mean l) ^ 2) <$> l) / (Z.of_nat (length l) - 1)).

Definition decode_example (bs : bytes) : option (gmap string (value Z Z)) :=
  '(arr, sr) ← decode bs;
  Some {[ "waveform" := VOpaque (shape1 arr);
          "sample_rate" := VOpaque sr;
          "format" := VOpaque 0 ]}.

(** One frame of 80 bins for every 10 ms. *)
Definition to_fbank (d : gmap string (value Z Z)) : option (gmap string (value Z Z)) :=
  match d !! "waveform", d !! "sample_rate" with
  | Some (VOpaque n), Some (VOpaque sr) =>
      Some (<["fbank" := VTensor {| shape0 := n * 100 / sr;
                                    shape1 := 80;
                                    at2 := λ i j, i + j |}]> d)
  | _, _ => None
  end.

(** A batch entry is the number of frames of a filter bank. *)
Definition to_batch (d : gmap string (value Z Z)) : option (gmap string Z) :=
  Some (omap (λ v, match v with
                   | VTensor t => Some (shape0 t)
                   | VOpaque _ => None
                   end) d).

(** The translator refuses an input without frames. *)
Definition translate (args : PredictArgs Z) : option (list string * UnitOutput Z) :=
  if decide (0 < input args) then
    Some ([tgt_lang args +:+ ":" +:+ pretty (input args)],
          {| units := 2 * input args |})
  else None.

Definition vocode (u : Z) (lang : string) (prosody : Z) : option (SpeechOutput Z) :=
  Some {| audio_wavs := [[silence 1 (u * 120)]]; sample_rate := 24000 |}.

Definition temp_name (suffix : string) (fs : gmap string bytes) : string :=
  "/tmp/tmp" +:+ pretty (Z.of_nat (size fs)) +:+ suffix.

#[export] Instance demo_environment : Environment := {|
  sample := Z;
  scalar := Z;
  opaque := Z;
  seqdata := Z;
  unit_seq := Z;
  fsub := Z.sub;
  fdiv := Z.div;
  fmean := mean;
  fstd := std;
  gcmvn_mean := {| len := 80; at1 := λ j, j |};
  gcmvn_std := {| len := 80; at1 := λ _, 2 |};
  LANGUAGE_CODE_TO_NAME := demo_table;
  torchaudio_load := λ _, decode;
  torchaudio_resample := resample;
  torchaudio_save := λ _, encode;
  decode_audio := decode_example;
  convert_to_fbank := to_fbank;
  collate := to_batch;
  translator_predict := translate;
  pretssel_generator_predict := vocode;
  NamedTemporaryFile := temp_name
|}.

(** Ninety seconds and ten seconds of mono audio at 16 kHz, sixty seconds
    at 44.1 kHz, a recording without samples, and an empty file. *)
Definition long_wav : bytes := encode (silence 1 1440000) 16000.
Definition short_wav : bytes := encode (silence 1 160000) 16000.
Definition minute_wav : bytes := encode (silence 1 2646000) 44100.
Definition blank_wav : bytes := encode (silence 1 0) 16000.

Definition demo_files : gmap string bytes :=
  {[ "/in/long.wav" := long_wav;
     "/in/short.wav" := short_wav;
     "/in/minute.wav" := minute_wav;
     "/in/blank.wav" := blank_wav;
     "/in/empty.wav" := [] ]}.

End Demo.

(** ** The form (app.py, 192-233) *)

Module Interface.

(** The initial value of the dropdown of target languages (app.py, 206). *)
Definition DEFAULT_TARGET_LANGUAGE : string := "French".

(** The rows of [gr.Examples]: an audio file and a target language
    (app.py, 215-220). *)
Definition EXAMPLES : list (string * string) :=
  [ ("assets/sample_input.mp3", "French");
    ("assets/sample_input.mp3", "Mandarin Chinese");
    ("assets/sample_input_2.mp3", "French");
    ("assets/sample_input_2.mp3", "Spanish") ]%string.

End Interface.

(** ** A demo environment with a silent synthesizer *)

Module DemoMute.
Import Languages Tensor Exn Values Effects Contracts Demo.

(** An environment whose synthesizer returns no waveform. *)
Definition mute_environment : Environment := {|
  sample := Z;
  scalar := Z;
  opaque := Z;
  seqdata := Z;
  unit_seq := Z;
  fsub := Z.sub;
  fdiv := Z.div;
  fmean := mean;
  fstd := std;
  gcmvn_mean := {| len := 80; at1 := λ j, j |};
  gcmvn_std := {| len := 80; at1 := λ _, 2 |};
  LANGUAGE_CODE_TO_NAME := demo_table;
  torchaudio_load := λ _, decode;
  torchaudio_resample := resample;
  torchaudio_save := λ _, encode;
  decode_audio := decode_example;
  convert_to_fbank := to_fbank;
  collate := to_batch;
  translator_predict := translate;
  pretssel_generator_predict := λ _ _ _, Some {| audio_wavs := []; sample_rate := 24000 |};
  NamedTemporaryFile := temp_name
|}.

End DemoMute.

(** ** A demo environment with a codec that pads

    Saving appends 1152 samples of silence, as an encoder that works by
    frames does; everything else is the demo environment. *)

Module DemoPad.
Import Languages Tensor Exn Values Effects Contracts Demo.



End DemoPad.

Module LanguagesFacts.
Import Languages.

Lemma invert_dict_snoc items k v :
  invert_dict (items ++ [(k, v)]) = <[v := k]> (invert_dict items).
Proof. unfold invert_dict. by rewrite foldl_app. Qed.

(** With pairwise distinct values nothing is overwritten: the inverted dict
    holds exactly the swapped items. *)
Lemma invert_dict_lookup items name code :
  NoDup items.*2 →
  invert_dict items !! name = Some code ↔ (code, name) ∈ items.
Proof.
  induction items as [|[k v] items IH] using rev_ind; intros Hnd.
  - unfold invert_dict; simpl. rewrite lookup_empty. split; [done|].
    intros Hin. by apply elem_of_nil in Hin.
  - rewrite invert_dict_snoc. rewrite fmap_app in Hnd.
    apply list.NoDup_app in Hnd as (Hnd & Hfresh & _).
    rewrite elem_of_app, list_elem_of_singleton.
    destruct (decide (v = name)) as [->|Hne].
    + rewrite lookup_insert_eq. split.
      * intros [= ->]. by right.
      * intros [Hin | [= ->]]; [|done].
        exfalso. apply (Hfresh name); [|simpl; left].
        apply list_elem_of_fmap. by exists (code, name).
    + rewrite lookup_insert_ne by done. rewrite IH by done.
      split; [by left|]. intros [Hin | [= _ ?]]; [done | congruence].
Qed.

Lemma invert_dict_size items :
  NoDup items.*2 → size (invert_dict items) = length items.
Proof.
  induction items as [|[k v] items IH] using rev_ind; intros Hnd.
  - unfold invert_dict; simpl. apply map_size_empty.
  - rewrite invert_dict_snoc, length_app. rewrite fmap_app in Hnd.
    apply list.NoDup_app in Hnd as (Hnd & Hfresh & _).
    rewrite map_size_insert_None.
    + rewrite IH by done. simpl. lia.
    + destruct (invert_dict items !! v) as [c|] eqn:E; [|done].
      apply invert_dict_lookup in E; [|done].
      exfalso. apply (Hfresh v); [|simpl; left].
      apply list_elem_of_fmap. by exists (c, v).
Qed.

Lemma dict_get_elem items code name :
  NoDup items.*1 → dict_get items code = Some name ↔ (code, name) ∈ items.
Proof.
  intros Hnd. unfold dict_get. split.
  - apply elem_of_list_to_map_2.
  - by apply elem_of_list_to_map_1.
Qed.

Lemma demo_table_ok : code_to_name_table_ok demo_table.
Proof.
  unfold code_to_name_table_ok. split_and!; compute_done.
Qed.

(** C5. The name-to-code map built by inverting [LANGUAGE_CODE_TO_NAME] and
    the table itself are mutually inverse: the inversion loses no entry, an
    item is in the table exactly when its swap is in the inverted map, every
    one of the six offered names has a code, whose name it is, and two
    offered names never share a code. *)
Theorem language_maps_bijective (LANGUAGE_CODE_TO_NAME : list (string * string)) :
  code_to_name_table_ok LANGUAGE_CODE_TO_NAME →
  size (LANGUAGE_NAME_TO_CODE LANGUAGE_CODE_TO_NAME) = length LANGUAGE_CODE_TO_NAME
  ∧ (∀ code name,
        LANGUAGE_NAME_TO_CODE LANGUAGE_CODE_TO_NAME !! name = Some code
        ↔ dict_get LANGUAGE_CODE_TO_NAME code = Some name)
  ∧ (∀ name, name ∈ TARGET_LANGUAGE_NAMES →
        ∃ code, LANGUAGE_NAME_TO_CODE LANGUAGE_CODE_TO_NAME !! name = Some code
                ∧ dict_get LANGUAGE_CODE_TO_NAME code = Some name)
  ∧ (∀ n1 n2 code,
        n1 ∈ TARGET_LANGUAGE_NAMES → n2 ∈ TARGET_LANGUAGE_NAMES →
        LANGUAGE_NAME_TO_CODE LANGUAGE_CODE_TO_NAME !! n1 = Some code →
        LANGUAGE_NAME_TO_CODE LANGUAGE_CODE_TO_NAME !! n2 = Some code →
        n1 = n2).
Proof.
  intros (Hcodes & Hnames & Hoffered). unfold LANGUAGE_NAME_TO_CODE.
  assert (Hiff : ∀ code name,
    invert_dict LANGUAGE_CODE_TO_NAME !! name = Some code
    ↔ dict_get LANGUAGE_CODE_TO_NAME code = Some name).
  { intros code name. by rewrite invert_dict_lookup, dict_get_elem. }
  split_and!.
  - by apply invert_dict_size.
  - exact Hiff.
  - intros name Hin. apply Hoffered in Hin.
    apply list_elem_of_fmap in Hin as ([code name'] & -> & Hin). simpl.
    exists code. split.
    + by apply invert_dict_lookup.
    + by apply dict_get_elem.
  - intros n1 n2 code _ _ H1 H2.
    apply Hiff in H1, H2. congruence.
Qed.

Lemma language_maps_bijective_witness :
  code_to_name_table_ok demo_table
  ∧ size (LANGUAGE_NAME_TO_CODE demo_table) = length demo_table
  ∧ LANGUAGE_NAME_TO_CODE demo_table !! "Mandarin Chinese"%string = Some "cmn"%string.
Proof.
  pose proof (language_maps_bijective demo_table demo_table_ok) as (Hsize & Hiff & _).
  split_and!.
  - exact demo_table_ok.
  - exact Hsize.
  - apply Hiff. reflexivity.
Defined.

End LanguagesFacts.

(** ** Facts about the effects *)

Module EffectsFacts.
Import Tensor Exn Values Effects.

Lemma or_raise_raises {A} e e' (o : option A) : or_raise e o = Raise e' → e' = e.
Proof. destruct o; simpl; congruence. Qed.

Lemma dict_lookup_raises {V} (d : gmap string V) key e :
  dict_lookup d key = Raise e → e = KeyError key.
Proof. apply or_raise_raises. Qed.

Lemma list_index_raises {A} (l : list A) i e :
  list_index l i = Raise e → e = IndexError.
Proof. apply or_raise_raises. Qed.

Lemma list_index2_raises {A} (l : list (list A)) i j e :
  list_index l i ≫= (λ t, list_index t j) = Raise e → e = IndexError.
Proof.
  destruct (list_index l i) as [t|e'] eqn:E; simpl.
  - apply list_index_raises.
  - apply list_index_raises in E. congruence.
Qed.

Lemma list_index2_ok {A} (l : list (list A)) i j a :
  list_index l i ≫= (λ t, list_index t j) = Ok a →
  l !! i ≫= (.!! j) = Some a.
Proof.
  unfold list_index. destruct (l !! i) as [t|]; simpl; [|done].
  destruct (t !! j); simpl; congruence.
Qed.

Section WithEnvironment.
Context `{Environment}.

Lemma bind_lift {A B} (o : outcome A) (k : A → M B) fs :
  (lift o ≫= k) fs =
  match o with
  | Ok a => prepend [] (k a fs)
  | Raise e => raise e fs
  end.
Proof. by destruct o. Qed.

Lemma bind_call {A B} s (o : option A) (k : A → M B) fs :
  (call s o ≫= k) fs =
  match o with
  | Some a => prepend [] (k a fs)
  | None => raise (StageError s) fs
  end.
Proof. by destruct o. Qed.

Lemma bind_emit {B} e (k : unit → M B) fs :
  (emit e ≫= k) fs = prepend [e] (k tt fs).
Proof. reflexivity. Qed.

(** The three components of a sequence, from those of its first part. *)
Lemma bind_components {A B} (m : M A) (k : A → M B) fs :
  (m ≫= k) fs =
  match returned (m fs) with
  | Ok a => prepend (events (m fs)) (k a (files (m fs)))
  | Raise e => {| returned := Raise e; files := files (m fs); events := events (m fs) |}
  end.
Proof. unfold mbind, M_bind, bind. by destruct (returned (m fs)). Qed.

End WithEnvironment.

End EffectsFacts.

(** ** Facts about [preprocess_audio] *)

Module PreprocessFacts.
Import Languages Tensor Exn Values Effects Contracts App EffectsFacts.

Lemma ceil_div_bounds x d :
  0 < d → x ≤ d * ceil_div x d < x + d.
Proof.
  intros Hd. unfold ceil_div.
  pose proof (Z.mul_div_le (- x) d Hd).
  pose proof (Z.mul_succ_div_gt (- x) d Hd).
  lia.
Qed.

Lemma slice_stop_exceeds n stop : 0 ≤ stop → stop < n → slice_stop n stop = stop.
Proof. intros ??. unfold slice_stop. case_decide; lia. Qed.

Example too_long_message_text :
  too_long_message = "Input audio is too long. Only the first 60 seconds is used."%string.
Proof. reflexivity. Qed.

Section WithEnvironment.
Context `{Environment}.

(** The whole behaviour of [preprocess_audio], by cases on the input. *)
Lemma preprocess_audio_cases path fs :
  preprocess_audio path fs =
  match fs !! path ≫= torchaudio_load path with
  | None => {| returned := Raise (StageError AudioLoad); files := fs; events := [] |}
  | Some (arr, org_sr) =>
      let new_arr := torchaudio_resample arr org_sr 44100 in
      {| returned := Ok tt;
         files :=
           <[path := torchaudio_save path
                       (if decide (shape1 new_arr > 2646000)
                        then slice_cols new_arr 2646000 else new_arr) 44100]> fs;
         events :=
           if decide (shape1 new_arr > 2646000)
           then [Warning too_long_message; Saved path 44100]
           else [Saved path 44100] |}
  end.
Proof.
  unfold preprocess_audio, load_file.
  rewrite bind_components. unfold call, lift.
  destruct (fs !! path ≫= torchaudio_load path) as [[arr org_sr]|]; simpl; [|done].
  change (MAX_INPUT_AUDIO_LENGTH * AUDIO_SAMPLE_RATE) with 2646000.
  change AUDIO_SAMPLE_RATE with 44100.
  rewrite bind_components.
  destruct (decide (shape1 (torchaudio_resample arr org_sr 44100) > 2646000)); reflexivity.
Qed.

(** C1. When the resampled waveform has more than int(60 * 44100) samples
    per channel, [preprocess_audio] returns normally, and the file at the
    input path is replaced by the encoding at 44100 Hz of a waveform that has
    the same channels, exactly 2646000 samples per channel, and the first
    2646000 samples of the resampled waveform; the only warning emitted is the
    message about the first 60 seconds. *)
Theorem preprocess_audio_truncates path fs content arr org_sr :
  fs !! path = Some content →
  torchaudio_load path content = Some (arr, org_sr) →
  shape1 (torchaudio_resample arr org_sr 44100) > 60 * 44100 →
  ∃ truncated : Tensor2 sample,
    shape0 truncated = shape0 (torchaudio_resample arr org_sr 44100)
    ∧ shape1 truncated = 2646000
    ∧ (∀ c i, 0 ≤ i < 2646000 →
         at2 truncated c i = at2 (torchaudio_resample arr org_sr 44100) c i)
    ∧ returned (preprocess_audio path fs) = Ok tt
    ∧ files (preprocess_audio path fs)
      = <[path := torchaudio_save path truncated 44100]> fs
    ∧ events (preprocess_audio path fs)
      = [Warning "Input audio is too long. Only the first 60 seconds is used.";
         Saved path 44100].
Proof.
  intros Hfile Hload Hlong.
  exists (slice_cols (torchaudio_resample arr org_sr 44100) 2646000).
  rewrite preprocess_audio_cases, Hfile. simpl. rewrite Hload. simpl.
  rewrite !decide_True by lia.
  split_and!; try reflexivity.
  apply slice_stop_exceeds; lia.
Qed.

(** C10. When the resampled waveform has at most int(60 * 44100) samples per
    channel, exactly that many included, [preprocess_audio] saves it whole and
    emits nothing but the save; and it emits the warning only when the
    resampled waveform has strictly more samples than that. *)
Theorem preprocess_audio_boundary path fs content arr org_sr :
  fs !! path = Some content →
  torchaudio_load path content = Some (arr, org_sr) →
  (shape1 (torchaudio_resample arr org_sr 44100) ≤ 60 * 44100 →
     returned (preprocess_audio path fs) = Ok tt
     ∧ files (preprocess_audio path fs)
       = <[path := torchaudio_save path (torchaudio_resample arr org_sr 44100) 44100]> fs
     ∧ events (preprocess_audio path fs) = [Saved path 44100])
  ∧ (∀ message, Warning message ∈ events (preprocess_audio path fs) →
       shape1 (torchaudio_resample arr org_sr 44100) > 60 * 44100).
Proof.
  intros Hfile Hload.
  rewrite preprocess_audio_cases, Hfile. simpl. rewrite Hload. simpl.
  split.
  - intros Hshort. by rewrite !decide_False by lia.
  - intros message. case_decide as Hcmp; [lia|].
    intros Hin. apply list_elem_of_singleton in Hin. discriminate.
Qed.

(** C2. For an input that decodes to a waveform of less than 60 seconds (its
    sample count is below 60 times its positive sample rate), given the
    documented output length of the resampler, [preprocess_audio] returns
    normally, replaces the file at the input path by the encoding at 44100 Hz
    of the whole resampled waveform, and emits no warning. The saved waveform
    lasts as long as the input up to less than one sample at 44100 Hz. *)
Theorem preprocess_audio_short path fs content arr org_sr :
  resample_shape_law →
  fs !! path = Some content →
  torchaudio_load path content = Some (arr, org_sr) →
  0 < org_sr →
  shape1 arr < 60 * org_sr →
  returned (preprocess_audio path fs) = Ok tt
  ∧ files (preprocess_audio path fs)
    = <[path := torchaudio_save path (torchaudio_resample arr org_sr 44100) 44100]> fs
  ∧ events (preprocess_audio path fs) = [Saved path 44100]
  ∧ shape0 (torchaudio_resample arr org_sr 44100) = shape0 arr
  ∧ shape1 arr * 44100
    ≤ shape1 (torchaudio_resample arr org_sr 44100) * org_sr
    < shape1 arr * 44100 + org_sr.
Proof.
  intros Hlaw Hfile Hload Hsr Hshort.
  destruct (Hlaw arr org_sr 44100 Hsr ltac:(lia)) as [Hch Hlen].
  pose proof (ceil_div_bounds (44100 * shape1 arr) org_sr Hsr) as Hceil.
  rewrite <- Hlen in Hceil.
  assert (shape1 (torchaudio_resample arr org_sr 44100) ≤ 2646000) by nia.
  rewrite preprocess_audio_cases, Hfile. simpl. rewrite Hload. simpl.
  rewrite !decide_False by lia.
  split_and!; try done; lia.
Qed.

End WithEnvironment.

Import Demo.

(** Ninety seconds at 16 kHz become 3969000 samples, which are cut. *)
Lemma preprocess_audio_truncates_witness :
  ∃ truncated : Tensor2 Z,
    shape0 truncated = 1
    ∧ shape1 truncated = 2646000
    ∧ (∀ c i, 0 ≤ i < 2646000 →
         at2 truncated c i = at2 (resample (silence 1 1440000) 16000 44100) c i)
    ∧ returned (preprocess_audio "/in/long.wav" demo_files) = Ok tt
    ∧ files (preprocess_audio "/in/long.wav" demo_files)
      = <["/in/long.wav"%string := encode truncated 44100]> demo_files
    ∧ events (preprocess_audio "/in/long.wav" demo_files)
      = [Warning "Input audio is too long. Only the first 60 seconds is used.";
         Saved "/in/long.wav" 44100].
Proof.
  apply (preprocess_audio_truncates (H := demo_environment)
           "/in/long.wav" demo_files long_wav (silence 1 1440000) 16000).
  - reflexivity.
  - reflexivity.
  - reflexivity.
Defined.

(** Sixty seconds at 44.1 kHz are exactly 2646000 samples: nothing is cut. *)
Lemma preprocess_audio_boundary_witness :
  shape1 (resample (silence 1 2646000) 44100 44100) = 2646000
  ∧ files (preprocess_audio "/in/minute.wav" demo_files)
    = <["/in/minute.wav"%string :=
          encode (resample (silence 1 2646000) 44100 44100) 44100]>
        demo_files
  ∧ events (preprocess_audio "/in/minute.wav" demo_files)
    = [Saved "/in/minute.wav" 44100].
Proof.
  pose proof (preprocess_audio_boundary (H := demo_environment)
                "/in/minute.wav" demo_files minute_wav
                (silence 1 2646000) 44100 eq_refl eq_refl) as [Hshort _].
  split; [reflexivity|].
  apply Hshort. apply Z.leb_le. vm_compute. reflexivity.
Defined.

Lemma demo_resample_shape_law : resample_shape_law (H := demo_environment).
Proof. intros arr orig_freq new_freq _ _. split; reflexivity. Qed.

(** Ten seconds at 16 kHz become 441000 samples at 44.1 kHz. *)
Lemma preprocess_audio_short_witness :
  returned (preprocess_audio "/in/short.wav" demo_files) = Ok tt
  ∧ files (preprocess_audio "/in/short.wav" demo_files)
    = <["/in/short.wav"%string :=
          encode (resample (silence 1 160000) 16000 44100) 44100]>
        demo_files
  ∧ events (preprocess_audio "/in/short.wav" demo_files)
    = [Saved "/in/short.wav" 44100]
  ∧ shape0 (resample (silence 1 160000) 16000 44100) = 1
  ∧ 160000 * 44100
    ≤ shape1 (resample (silence 1 160000) 16000 44100) * 16000
    < 160000 * 44100 + 16000.
Proof.
  apply (preprocess_audio_short (H := demo_environment)
           "/in/short.wav" demo_files short_wav (silence 1 160000) 16000).
  - exact demo_resample_shape_law.
  - reflexivity.
  - reflexivity.
  - lia.
  - apply Z.ltb_lt. vm_compute. reflexivity.
Defined.

End PreprocessFacts.

(** ** Facts about [normalize_fbank] *)

Module NormalizeFacts.
Import Tensor Exn Values Effects App.

Lemma broadcast_dim_same n : broadcast_dim n n = Some n.
Proof. unfold broadcast_dim. by rewrite decide_True. Qed.

Lemma broadcast_idx_in_range n j : 0 ≤ j < n → broadcast_idx n j = j.
Proof. intros Hj. unfold broadcast_idx. case_decide; lia. Qed.

Lemma broadcast_rows_same {A} (op : A → A → A) t v :
  len v = shape1 t →
  ∃ r, broadcast_rows op t v = Some r
       ∧ shape0 r = shape0 t
       ∧ shape1 r = shape1 t
       ∧ ∀ i j, 0 ≤ j < shape1 t → at2 r i j = op (at2 t i j) (at1 v j).
Proof.
  intros Hlen. unfold broadcast_rows. rewrite Hlen, broadcast_dim_same. simpl.
  eexists. split_and!; try reflexivity.
  intros i j Hj. simpl. by rewrite broadcast_idx_in_range.
Qed.

Section WithEnvironment.
Context `{Environment}.

(** The exceptions of [normalize_fbank]: a missing entry, an entry that is
    not a tensor, or global statistics of an incompatible length. *)
Lemma normalize_fbank_raises (data : gmap string (value scalar opaque)) e :
  normalize_fbank data = Raise e →
  e = KeyError "fbank" ∨ e = TypeError ∨ e = RuntimeError.
Proof.
  unfold normalize_fbank, dict_lookup, subtract, divide.
  destruct (data !! "fbank"%string) as [[raw|o]|]; simpl; [|naive_solver..].
  unfold std_mean_dim0.
  destruct (broadcast_rows fsub raw (reduce_dim0 fmean raw)) as [centered|];
    simpl; [|naive_solver].
  destruct (broadcast_rows fdiv centered (reduce_dim0 fstd raw)); simpl; [|naive_solver].
  destruct (broadcast_rows fsub raw gcmvn_mean) as [gcentered|]; simpl; [|naive_solver].
  destruct (broadcast_rows fdiv gcentered gcmvn_std); simpl; [|naive_solver].
  discriminate.
Qed.

(** C3. For a dict whose entry "fbank" is a filter bank [raw] with as many
    bins as the global statistics, [normalize_fbank] returns the dict with two
    entries set and the others untouched: "fbank" is [raw] minus the mean of
    each bin over the frames of [raw], divided by the standard deviation of
    that bin over the same frames; "gcmvn_fbank" is the same [raw] minus the
    global mean of the bin, divided by its global standard deviation. The two
    keys differ, and both entries have the frames and the bins of [raw]. *)
Theorem normalize_fbank_keeps_both_variants
    (data : gmap string (value scalar opaque)) (raw : Tensor2 scalar) :
  data !! "fbank"%string = Some (VTensor raw) →
  len gcmvn_mean = shape1 raw →
  len gcmvn_std = shape1 raw →
  ∃ (out : gmap string (value scalar opaque)) (fbank gcmvn_fbank : Tensor2 scalar),
    normalize_fbank data = Ok out
    ∧ out !! "fbank"%string = Some (VTensor fbank)
    ∧ out !! "gcmvn_fbank"%string = Some (VTensor gcmvn_fbank)
    ∧ "fbank"%string ≠ "gcmvn_fbank"%string
    ∧ (∀ key, key ≠ "fbank"%string → key ≠ "gcmvn_fbank"%string →
         out !! key = data !! key)
    ∧ shape0 fbank = shape0 raw ∧ shape0 gcmvn_fbank = shape0 raw
    ∧ shape1 fbank = shape1 raw ∧ shape1 gcmvn_fbank = shape1 raw
    ∧ (∀ i j, 0 ≤ j < shape1 raw →
         at2 fbank i j
         = fdiv (fsub (at2 raw i j) (fmean (column raw j))) (fstd (column raw j)))
    ∧ (∀ i j, 0 ≤ j < shape1 raw →
         at2 gcmvn_fbank i j
         = fdiv (fsub (at2 raw i j) (at1 gcmvn_mean j)) (at1 gcmvn_std j)).
Proof.
  intros Hraw Hmean Hstd.
  destruct (broadcast_rows_same fsub raw (reduce_dim0 fmean raw) eq_refl)
    as (centered & Ec & Hc0 & Hc1 & Hc).
  destruct (broadcast_rows_same fdiv centered (reduce_dim0 fstd raw) (eq_sym Hc1))
    as (standardized & Es & Hs0 & Hs1 & Hs).
  destruct (broadcast_rows_same fsub raw gcmvn_mean Hmean)
    as (gcentered & Egc & Hgc0 & Hgc1 & Hgc).
  destruct (broadcast_rows_same fdiv gcentered gcmvn_std (eq_trans Hstd (eq_sym Hgc1)))
    as (gstandardized & Egs & Hgs0 & Hgs1 & Hgs).
  exists (<["gcmvn_fbank"%string := VTensor gstandardized]>
            (<["fbank"%string := VTensor standardized]> data)),
         standardized, gstandardized.
  split_and!.
  - unfold normalize_fbank, dict_lookup. rewrite Hraw. simpl.
    unfold subtract, divide. rewrite Ec. simpl. rewrite Es. simpl.
    rewrite Egc. simpl. rewrite Egs. reflexivity.
  - rewrite lookup_insert_ne by done. apply lookup_insert_eq.
  - apply lookup_insert_eq.
  - done.
  - intros key Hk1 Hk2. by rewrite !lookup_insert_ne.
  - congruence.
  - congruence.
  - congruence.
  - congruence.
  - intros i j Hj. rewrite Hs by lia. rewrite Hc by lia. reflexivity.
  - intros i j Hj. rewrite Hgs by lia. rewrite Hgc by lia. reflexivity.
Qed.

End WithEnvironment.

Import Demo.

(** A filter bank of three frames and 80 bins in the demo environment. *)
Lemma normalize_fbank_keeps_both_variants_witness :
  ∃ (out : gmap string (value Z Z)) (fbank gcmvn_fbank : Tensor2 Z),
    normalize_fbank {[ "fbank"%string := VTensor (mkTensor2 3 80 (λ i j, 10 * i + j)) ]}
    = Ok out
    ∧ out !! "fbank"%string = Some (VTensor fbank)
    ∧ out !! "gcmvn_fbank"%string = Some (VTensor gcmvn_fbank)
    ∧ shape0 fbank = 3 ∧ shape0 gcmvn_fbank = 3
    ∧ at2 fbank 2 7 = 1
    ∧ at2 gcmvn_fbank 2 7 = 10.
Proof.
  destruct (normalize_fbank_keeps_both_variants (H := demo_environment)
              {[ "fbank"%string := VTensor (mkTensor2 3 80 (λ i j, 10 * i + j)) ]}
              (mkTensor2 3 80 (λ i j, 10 * i + j))
              ltac:(apply lookup_singleton_eq) eq_refl eq_refl)
    as (out & fbank & gcmvn & Hout & Hf & Hg & _ & _ & Hf0 & Hg0 & _ & _ & Hfv & Hgv).
  exists out, fbank, gcmvn.
  split_and!; try assumption.
  - rewrite Hfv by (simpl; lia). reflexivity.
  - rewrite Hgv by (simpl; lia). reflexivity.
Defined.

End NormalizeFacts.

(** ** Facts about [run] *)

Module RunFacts.
Import Languages Tensor Exn Values Effects Contracts App.
Import EffectsFacts PreprocessFacts NormalizeFacts.

Section WithEnvironment.
Context `{Environment}.

Lemma bind_save {B} path arr sr (k : unit → M B) fs :
  (save_file path arr sr ≫= k) fs
  = prepend [Saved path sr] (k tt (<[path := torchaudio_save path arr sr]> fs)).
Proof. reflexivity. Qed.

Lemma bind_read {B} path (k : bytes → M B) fs :
  (read_file path ≫= k) fs =
  match fs !! path with
  | Some block => prepend [] (k block fs)
  | None => raise (FileNotFoundError path) fs
  end.
Proof. unfold read_file. rewrite bind_components. simpl. by destruct (fs !! path). Qed.

Lemma bind_temp {B} suffix (k : string → M B) fs :
  (create_temp_file suffix ≫= k) fs
  = prepend [TempFileCreated (NamedTemporaryFile suffix fs)]
      (k (NamedTemporaryFile suffix fs) (<[NamedTemporaryFile suffix fs := []]> fs)).
Proof. reflexivity. Qed.

Lemma bind_preprocess {B} path (k : unit → M B) fs :
  (preprocess_audio path ≫= k) fs =
  match fs !! path ≫= torchaudio_load path with
  | None => raise (StageError AudioLoad) fs
  | Some (arr, org_sr) =>
      let new_arr := torchaudio_resample arr org_sr 44100 in
      prepend
        (if decide (shape1 new_arr > 2646000)
         then [Warning too_long_message; Saved path 44100]
         else [Saved path 44100])
        (k tt (<[path := torchaudio_save path
                           (if decide (shape1 new_arr > 2646000)
                            then slice_cols new_arr 2646000 else new_arr) 44100]> fs))
  end.
Proof.
  rewrite bind_components, preprocess_audio_cases.
  by destruct (fs !! path ≫= torchaudio_load path) as [[arr org_sr]|].
Qed.

End WithEnvironment.

(** Which statement an exception comes from. *)
Ltac raise_origin :=
  repeat match goal with
         | E : dict_lookup _ _ = Raise _ |- _ => apply dict_lookup_raises in E
         | E : list_index _ _ = Raise _ |- _ => apply list_index_raises in E
         | E : list_index _ _ ≫= _ = Raise _ |- _ => apply list_index2_raises in E
         | E : normalize_fbank _ = Raise _ |- _ =>
             apply normalize_fbank_raises in E as [E|[E|E]]
         end;
  simplify_eq.

(** One statement of [run]: the sequence is rewritten by the equation of its
    first statement. *)
Ltac run_step :=
  first
    [ rewrite bind_lift | rewrite bind_call | rewrite bind_emit
    | rewrite bind_save | rewrite bind_read | rewrite bind_temp
    | rewrite bind_preprocess ];
  rewrite ?lookup_insert_eq;
  cbv beta iota zeta.

(** All the ways through [run]: one goal for each statement that can raise,
    and one for the normal return. *)
Ltac run_cases :=
  unfold run;
  repeat
    (run_step;
     try match goal with
         | |- context [match ?o with Some _ => _ | None => _ end] =>
             destruct o eqn:?
         | |- context [match ?o with Ok _ => _ | Raise _ => _ end] =>
             destruct o eqn:?
         end;
     try match goal with
         | |- context [let '(_, _) := ?p in _] => destruct p
         end;
     cbv beta iota zeta);
  simpl.

(** Membership in a list of events that is written out. *)
Ltac event_in H :=
  repeat
    match type of H with
    | _ ∈ [] => by apply elem_of_nil in H
    | _ ∈ _ :: _ => apply elem_of_cons in H as [H|H]
    | _ ∈ _ ++ _ => apply elem_of_app in H as [H|H]
    | _ ∈ (if decide _ then _ else _) => case_decide
    | _ = _ => first [discriminate H | injection H as H]
    end.

Section WithEnvironment.
Context `{Environment}.

(** C6. For a target language that is not a key of [LANGUAGE_NAME_TO_CODE],
    [run] raises the [KeyError] of the lookup, leaves every file as it was
    and emits no event: nothing was loaded, saved or called. *)
Theorem run_unknown_language path target_language fs :
  LANGUAGE_NAME_TO_CODE !! target_language = None →
  run path target_language fs
  = {| returned := Raise (KeyError target_language); files := fs; events := [] |}.
Proof.
  intros Hnone. unfold run. run_step.
  unfold dict_lookup. rewrite Hnone. reflexivity.
Qed.


Lemma load_ok_inv path (fs : gmap string bytes) arr org_sr :
  fs !! path ≫= torchaudio_load path = Some (arr, org_sr) →
  ∃ content, fs !! path = Some content
             ∧ torchaudio_load path content = Some (arr, org_sr).
Proof. destruct (fs !! path) as [content|]; [|done]. intros Hload. by exists content. Qed.

Lemma dom_overwrite path (content : bytes) (fs : gmap string bytes) :
  is_Some (fs !! path) → dom (<[path := content]> fs) = dom fs.
Proof.
  intros Hsome. rewrite dom_insert_L.
  apply elem_of_dom in Hsome. apply subseteq_union_1_L.
  by apply singleton_subseteq_l.
Qed.

(** C7. For a valid target language and an input file that torchaudio cannot
    decode (an empty file for one), [run] raises the error of the loading
    stage and leaves the files as they were: no output file exists. More
    generally a temporary file is created only in a run in which
    preprocessing, the decoding of the bytes, the conversion, normalization
    and collation of the features, the translation and the synthesis have
    all succeeded; and a run that raises the error of an external stage
    leaves the set of files as it was. *)
Theorem run_malformed_input path target_language code fs content :
  LANGUAGE_NAME_TO_CODE !! target_language = Some code →
  fs !! path = Some content →
  (torchaudio_load path content = None →
     run path target_language fs
     = {| returned := Raise (StageError AudioLoad); files := fs; events := [] |})
  ∧ (∀ name, TempFileCreated name ∈ events (run path target_language fs) →
       ∃ block decoded converted normalized batch args text_output unit_output
         speech_output,
         returned (preprocess_audio path fs) = Ok tt
         ∧ files (preprocess_audio path fs) !! path = Some block
         ∧ decode_audio block = Some decoded
         ∧ convert_to_fbank decoded = Some converted
         ∧ normalize_fbank converted = Ok normalized
         ∧ collate normalized = Some batch
         ∧ batch !! "fbank"%string = Some (input args)
         ∧ batch !! "gcmvn_fbank"%string = Some (prosody_encoder_input args)
         ∧ translator_predict args = Some (text_output, unit_output)
         ∧ pretssel_generator_predict (units unit_output) code
             (prosody_encoder_input args) = Some speech_output)
  ∧ (∀ s, returned (run path target_language fs) = Raise (StageError s) →
       dom (files (run path target_language fs)) = dom fs
       ∧ ∀ name, TempFileCreated name ∉ events (run path target_language fs)).
Proof.
  intros Hcode Hfile. split_and!.
  - intros Hload. unfold run. run_step.
    unfold dict_lookup. rewrite Hcode. simpl.
    run_step. rewrite Hfile. simpl. rewrite Hload. reflexivity.
  - intros name. run_cases; intros Hin; event_in Hin.
    all: rewrite preprocess_audio_cases.
    all: match goal with
         | E : _ ≫= torchaudio_load _ = Some _ |- _ => rewrite E
         end.
    all: unfold dict_lookup in *; rewrite Hcode in *; simplify_eq/=.
    all: repeat match goal with
           | E : or_raise _ ?o = Ok _ |- _ => destruct o eqn:?; simplify_eq/=
           end.
    all: eexists _, _, _, _, _, (mkPredictArgs _ _ _ _ _ _ _ _ _), _, _, _.
    all: simpl; split_and!;
      [ reflexivity | apply lookup_insert_eq | eassumption .. ].
  - intros s. run_cases; intros Hret; simplify_eq; raise_origin.
    all: split; [|intros name Hin; event_in Hin].
    all: try done.
    all: apply dom_overwrite; by rewrite Hfile.
Qed.

(** C9. When [run] raises the error of an external stage other than the
    loading of the audio (byte decoding, feature conversion, collation,
    translation or synthesis), preprocessing had succeeded and the files are
    those that it left: the file at the input path holds the encoding at
    44100 Hz of the resampled waveform, cut to 2646000 samples when longer,
    and not the content it had before the request. *)
Theorem run_failure_keeps_overwrite path target_language fs s :
  returned (run path target_language fs) = Raise (StageError s) →
  s ≠ AudioLoad →
  ∃ content arr org_sr,
    fs !! path = Some content
    ∧ torchaudio_load path content = Some (arr, org_sr)
    ∧ returned (preprocess_audio path fs) = Ok tt
    ∧ files (run path target_language fs) = files (preprocess_audio path fs)
    ∧ files (run path target_language fs) !! path
      = Some (torchaudio_save path
                (if decide (shape1 (torchaudio_resample arr org_sr 44100) > 2646000)
                 then slice_cols (torchaudio_resample arr org_sr 44100) 2646000
                 else torchaudio_resample arr org_sr 44100)
                44100).
Proof.
  intros Hret Hs. revert Hret.
  run_cases; intros Hret; simplify_eq; raise_origin.
  all: rewrite !preprocess_audio_cases.
  all: match goal with
       | E : _ ≫= torchaudio_load _ = Some _ |- _ =>
           pose proof E as Hload; apply load_ok_inv in E as (content & Hfile & ?)
       end.
  all: exists content; do 2 eexists.
  all: rewrite Hload; simpl; rewrite ?lookup_insert_eq.
  all: split_and!; try done; eassumption.
Qed.

End WithEnvironment.

Import Demo.

(** "Klingon" is not offered: nothing happens to the files. *)
Lemma run_unknown_language_witness :
  run "/in/short.wav" "Klingon" demo_files
  = {| returned := Raise (KeyError "Klingon"); files := demo_files; events := [] |}.
Proof.
  apply (run_unknown_language (H := demo_environment)
           "/in/short.wav" "Klingon" demo_files).
  vm_compute. reflexivity.
Defined.


(** The empty file does not decode: the request fails and no file changes. *)
Lemma run_malformed_input_witness :
  run "/in/empty.wav" "French" demo_files
  = {| returned := Raise (StageError AudioLoad); files := demo_files; events := [] |}.
Proof.
  destruct (run_malformed_input (H := demo_environment)
              "/in/empty.wav" "French" "fra" demo_files []) as (Hfail & _ & _).
  - vm_compute. reflexivity.
  - reflexivity.
  - apply Hfail. reflexivity.
Defined.

(** The recording without samples is refused by the demo translator; the
    input file then holds the header for 44100 Hz, not the one for 16 kHz
    that it held before the request. *)
Lemma run_failure_keeps_overwrite_witness :
  returned (run "/in/blank.wav" "French" demo_files) = Raise (StageError Translate)
  ∧ files (run "/in/blank.wav" "French" demo_files) !! "/in/blank.wav"%string
    = Some (encode (silence 1 0) 44100)
  ∧ demo_files !! "/in/blank.wav"%string = Some (encode (silence 1 0) 16000)
  ∧ encode (silence 1 0) 44100 ≠ encode (silence 1 0) 16000.
Proof.
  assert (Hret : returned (run "/in/blank.wav" "French" demo_files)
                 = Raise (StageError Translate)) by (vm_compute; reflexivity).
  destruct (run_failure_keeps_overwrite (H := demo_environment)
              "/in/blank.wav" "French" demo_files Translate Hret)
    as (content & arr & org_sr & Hfile & Hload & _ & _ & Hsaved).
  - discriminate.
  - split_and!.
    + exact Hret.
    + rewrite Hsaved. vm_compute in Hfile. injection Hfile as <-.
      vm_compute in Hload. injection Hload as <- <-. reflexivity.
    + reflexivity.
    + discriminate.
Defined.

End RunFacts.

(** ** More about the inversion of a dict (app.py, 66) *)

Module InvertFacts.
Import Languages LanguagesFacts.

Lemma invert_dict_dom items :
  dom (invert_dict items) = list_to_set items.*2.
Proof.
  induction items as [|[k v] items IH] using rev_ind.
  - unfold invert_dict. simpl. apply dom_empty_L.
  - rewrite invert_dict_snoc, dom_insert_L, IH, fmap_app, list_to_set_app_L.
    simpl. rewrite (right_id_L ∅ (∪)). apply (comm_L (∪)).
Qed.

Lemma size_list_to_set_le (l : list string) :
  (size (list_to_set l : gset string) ≤ length l)%nat.
Proof.
  induction l as [|x l IH].
  - by rewrite list_to_set_nil, size_empty.
  - rewrite list_to_set_cons, size_union_alt, size_singleton.
    pose proof (subseteq_size (list_to_set l ∖ {[x]}) (list_to_set l : gset string)
                  (subseteq_difference_l _ _ _ (reflexivity _))).
    simpl. lia.
Qed.

Lemma size_list_to_set_NoDup (l : list string) :
  size (list_to_set l : gset string) = length l → NoDup l.
Proof.
  induction l as [|x l IH]; intros Hsize.
  - constructor.
  - pose proof (size_list_to_set_le l) as Hle.
    rewrite list_to_set_cons in Hsize. simpl in Hsize.
    destruct (decide (x ∈ l)) as [Hin|Hnotin].
    + exfalso.
      rewrite (subseteq_union_1_L {[x]} (list_to_set l)) in Hsize; [lia|].
      by apply singleton_subseteq_l, elem_of_list_to_set.
    + constructor; [done|]. apply IH.
      rewrite size_union in Hsize
        by by apply disjoint_singleton_l, not_elem_of_list_to_set.
      rewrite size_singleton in Hsize. lia.
Qed.

(** X1. The inverted dict never has more entries than the dict, and it has
    as many exactly when no two items of the dict share their value: the
    inversion loses an entry as soon as two codes have the same name. *)
Theorem invert_dict_size_iff (items : list (string * string)) :
  (size (invert_dict items) ≤ length items)%nat
  ∧ (size (invert_dict items) = length items ↔ NoDup items.*2).
Proof.
  assert (Hsize : size (invert_dict items) = size (list_to_set items.*2 : gset string)).
  { rewrite <- invert_dict_dom. symmetry. apply size_dom. }
  rewrite Hsize, <- (length_fmap snd items). split.
  - apply size_list_to_set_le.
  - split.
    + apply size_list_to_set_NoDup.
    + apply size_list_to_set.
Qed.

(** The demo table has six distinct names: six entries after inversion. *)
Lemma invert_dict_size_iff_witness :
  size (invert_dict demo_table) = length demo_table.
Proof.
  apply (invert_dict_size_iff demo_table). compute_done.
Defined.

(** X2. When several items of the dict have the same value, the inverted
    dict maps that value to the key of the last of them. *)
Theorem invert_dict_last_wins (before after : list (string * string)) code name :
  name ∉ after.*2 →
  invert_dict (before ++ (code, name) :: after) !! name = Some code.
Proof.
  induction after as [|[k v] after IH] using rev_ind; intros Hlast.
  - rewrite invert_dict_snoc. apply lookup_insert_eq.
  - rewrite app_comm_cons, app_assoc, invert_dict_snoc.
    rewrite fmap_app, not_elem_of_app in Hlast. destruct Hlast as [Hafter Hv].
    rewrite lookup_insert_ne.
    + by apply IH.
    + intros ->. apply Hv. simpl. left.
Qed.

(** Two codes for one name: the later one is kept, and an entry is lost. *)
Lemma invert_dict_last_wins_witness :
  invert_dict [("zho", "Chinese"); ("cmn", "Chinese"); ("eng", "English")]%string
    !! "Chinese"%string = Some "cmn"%string.
Proof.
  apply (invert_dict_last_wins [("zho", "Chinese")]%string
           [("eng", "English")]%string "cmn" "Chinese").
  compute_done.
Defined.

End InvertFacts.

(** ** More about [preprocess_audio] *)

Module PreprocessMore.
Import Languages Tensor Exn Values Effects Contracts App EffectsFacts PreprocessFacts.

Lemma slice_stop_min n stop : 0 ≤ stop → slice_stop n stop = Z.min stop n.
Proof. intros Hstop. unfold slice_stop. case_decide; lia. Qed.

Section WithEnvironment.
Context `{Environment}.

(** X3. When the file at the path does not exist, or exists and is not
    decoded by torchaudio, [preprocess_audio] raises the error of the loading
    stage before any effect: every file is as it was, no file was created at
    the path, and neither a warning nor a save was emitted. *)
Theorem preprocess_audio_fails_clean path (fs : gmap string bytes) :
  fs !! path ≫= torchaudio_load path = None →
  preprocess_audio path fs
  = {| returned := Raise (StageError AudioLoad); files := fs; events := [] |}
  ∧ files (preprocess_audio path fs) !! path = fs !! path
  ∧ dom (files (preprocess_audio path fs)) = dom fs.
Proof.
  intros Hload. rewrite preprocess_audio_cases, Hload. done.
Qed.

(** X4. [preprocess_audio] writes to no path but its argument and neither
    adds nor removes a file. *)
Theorem preprocess_audio_footprint path (fs : gmap string bytes) :
  dom (files (preprocess_audio path fs)) = dom fs
  ∧ (∀ other, other ≠ path →
       files (preprocess_audio path fs) !! other = fs !! other).
Proof.
  rewrite preprocess_audio_cases.
  destruct (fs !! path ≫= torchaudio_load path) as [[arr org_sr]|] eqn:Hload; simpl.
  - split.
    + rewrite dom_insert_L. apply subseteq_union_1_L, singleton_subseteq_l.
      apply elem_of_dom. destruct (fs !! path); [by eexists|done].
    + intros other Hother. by rewrite lookup_insert_ne.
  - done.
Qed.

(** X5. Whenever [preprocess_audio] returns, the file at its path holds the
    encoding at 44100 Hz of a waveform with the channels of the resampled
    input, its samples from the first on, and the smaller of its sample count
    and 2646000 as sample count: what is saved never exceeds sixty seconds. *)
Theorem preprocess_audio_saved_bound path (fs : gmap string bytes) :
  returned (preprocess_audio path fs) = Ok tt →
  ∃ content arr org_sr saved,
    fs !! path = Some content
    ∧ torchaudio_load path content = Some (arr, org_sr)
    ∧ files (preprocess_audio path fs) !! path
      = Some (torchaudio_save path saved 44100)
    ∧ shape0 saved = shape0 (torchaudio_resample arr org_sr 44100)
    ∧ shape1 saved = Z.min 2646000 (shape1 (torchaudio_resample arr org_sr 44100))
    ∧ shape1 saved ≤ 60 * 44100
    ∧ (∀ c i, at2 saved c i = at2 (torchaudio_resample arr org_sr 44100) c i).
Proof.
  rewrite preprocess_audio_cases.
  destruct (fs !! path) as [content|] eqn:Hfile; simpl; [|done].
  destruct (torchaudio_load path content) as [[arr org_sr]|] eqn:Hload; simpl; [|done].
  intros _. exists content, arr, org_sr.
  exists (if decide (shape1 (torchaudio_resample arr org_sr 44100) > 2646000)
          then slice_cols (torchaudio_resample arr org_sr 44100) 2646000
          else torchaudio_resample arr org_sr 44100).
  split_and!; try done.
  - apply lookup_insert_eq.
  - by case_decide.
  - case_decide; simpl; [rewrite slice_stop_min|]; lia.
  - case_decide; simpl; [rewrite slice_stop_min|]; lia.
  - by case_decide.
Qed.


End WithEnvironment.

Import Demo.

(** The file that does not exist, and the empty file. *)
Lemma preprocess_audio_fails_clean_witness :
  preprocess_audio "/in/nothing.wav" demo_files
  = {| returned := Raise (StageError AudioLoad); files := demo_files; events := [] |}
  ∧ files (preprocess_audio "/in/nothing.wav" demo_files) !! "/in/nothing.wav"%string
    = None
  ∧ files (preprocess_audio "/in/empty.wav" demo_files) !! "/in/empty.wav"%string
    = Some [].
Proof.
  destruct (preprocess_audio_fails_clean (H := demo_environment)
              "/in/nothing.wav" demo_files) as (Hres & Hfile & _).
  { vm_compute. reflexivity. }
  destruct (preprocess_audio_fails_clean (H := demo_environment)
              "/in/empty.wav" demo_files) as (_ & Hempty & _).
  { vm_compute. reflexivity. }
  split_and!.
  - exact Hres.
  - rewrite Hfile. reflexivity.
  - rewrite Hempty. reflexivity.
Defined.

Lemma preprocess_audio_footprint_witness :
  files (preprocess_audio "/in/long.wav" demo_files) !! "/in/short.wav"%string
  = Some short_wav.
Proof.
  destruct (preprocess_audio_footprint (H := demo_environment)
              "/in/long.wav" demo_files) as [_ Hother].
  rewrite Hother by discriminate. reflexivity.
Defined.

Lemma preprocess_audio_saved_bound_witness :
  ∃ saved : Tensor2 Z,
    files (preprocess_audio "/in/long.wav" demo_files) !! "/in/long.wav"%string
    = Some (encode saved 44100)
    ∧ shape1 saved = 2646000.
Proof.
  destruct (preprocess_audio_saved_bound (H := demo_environment)
              "/in/long.wav" demo_files)
    as (content & arr & org_sr & saved & Hfile & Hload & Hsaved & _ & Hlen & _).
  - vm_compute. reflexivity.
  - exists saved. split; [exact Hsaved|].
    etrans; [exact Hlen|]. vm_compute in Hfile. injection Hfile as <-.
    vm_compute in Hload. injection Hload as <- <-. reflexivity.
Defined.


End PreprocessMore.

(** ** More about [normalize_fbank] *)

Module NormalizeMore.
Import Tensor Exn Values Effects App NormalizeFacts.

Lemma broadcast_rows_Some {A} (op : A → A → A) t v r :
  broadcast_rows op t v = Some r →
  shape0 r = shape0 t ∧ broadcast_dim (shape1 t) (len v) = Some (shape1 r).
Proof.
  unfold broadcast_rows.
  destruct (broadcast_dim (shape1 t) (len v)) as [d|]; simpl; [|done].
  by intros [= <-].
Qed.

Lemma broadcast_rows_None {A} (op : A → A → A) t v :
  broadcast_rows op t v = None ↔ broadcast_dim (shape1 t) (len v) = None.
Proof.
  unfold broadcast_rows.
  by destruct (broadcast_dim (shape1 t) (len v)) as [d|].
Qed.

Section WithEnvironment.
Context `{Environment}.

(** The steps of [normalize_fbank] on a filter bank. *)
Lemma normalize_fbank_tensor (data : gmap string (value scalar opaque)) raw :
  data !! "fbank"%string = Some (VTensor raw) →
  ∃ centered standardized,
    broadcast_rows fsub raw (reduce_dim0 fmean raw) = Some centered
    ∧ broadcast_rows fdiv centered (reduce_dim0 fstd raw) = Some standardized
    ∧ shape0 standardized = shape0 raw
    ∧ shape1 standardized = shape1 raw
    ∧ normalize_fbank data
      = (gcentered ← subtract raw gcmvn_mean;
         gstandardized ← divide gcentered gcmvn_std;
         Ok (<["gcmvn_fbank"%string := VTensor gstandardized]>
               (<["fbank"%string := VTensor standardized]> data))).
Proof.
  intros Hraw.
  destruct (broadcast_rows_same fsub raw (reduce_dim0 fmean raw) eq_refl)
    as (centered & Ec & Hc0 & Hc1 & _).
  destruct (broadcast_rows_same fdiv centered (reduce_dim0 fstd raw) (eq_sym Hc1))
    as (standardized & Es & Hs0 & Hs1 & _).
  exists centered, standardized. split_and!; [done|done|congruence|congruence|].
  unfold normalize_fbank, dict_lookup, std_mean_dim0. rewrite Hraw. simpl.
  unfold subtract, divide. rewrite Ec. simpl. rewrite Es. reflexivity.
Qed.

(** X7. Whenever [normalize_fbank] returns, its input had a filter bank
    under "fbank", and its output is the input with "fbank" replaced and
    "gcmvn_fbank" set, both with the frame count of that filter bank. The
    per-utterance copy keeps the bins of the filter bank; the global copy has
    the bins that broadcasting against the global statistics gives. *)
Theorem normalize_fbank_returns (data out : gmap string (value scalar opaque)) :
  normalize_fbank data = Ok out →
  ∃ raw fbank gcmvn_fbank bins,
    data !! "fbank"%string = Some (VTensor raw)
    ∧ out = <["gcmvn_fbank"%string := VTensor gcmvn_fbank]>
              (<["fbank"%string := VTensor fbank]> data)
    ∧ dom out = dom data ∪ {["gcmvn_fbank"%string]}
    ∧ shape0 fbank = shape0 raw
    ∧ shape0 gcmvn_fbank = shape0 raw
    ∧ shape1 fbank = shape1 raw
    ∧ broadcast_dim (shape1 raw) (len gcmvn_mean) = Some bins
    ∧ broadcast_dim bins (len gcmvn_std) = Some (shape1 gcmvn_fbank).
Proof.
  destruct (data !! "fbank"%string) as [[raw|o]|] eqn:Hraw.
  2, 3: unfold normalize_fbank, dict_lookup; rewrite Hraw; discriminate.
  destruct (normalize_fbank_tensor data raw Hraw)
    as (centered & standardized & _ & _ & Hs0 & Hs1 & ->).
  unfold subtract, divide.
  destruct (broadcast_rows fsub raw gcmvn_mean) as [gcentered|] eqn:Egc;
    simpl; [|done].
  destruct (broadcast_rows fdiv gcentered gcmvn_std) as [gstandardized|] eqn:Egs;
    simpl; [|done].
  intros [= <-].
  apply broadcast_rows_Some in Egc as [Hgc0 Hgc1].
  apply broadcast_rows_Some in Egs as [Hgs0 Hgs1].
  exists raw, standardized, gstandardized, (shape1 gcentered).
  split_and!; try done; [|congruence].
  rewrite !dom_insert_L.
  assert ("fbank"%string ∈ dom data) by (apply elem_of_dom; by eexists).
  rewrite (subseteq_union_1_L {["fbank"%string]} (dom data))
    by by apply singleton_subseteq_l.
  apply (comm_L (∪)).
Qed.

(** X8. The errors of [normalize_fbank]: without an entry "fbank" it raises
    the [KeyError] of that key, and with an entry that is not a tensor a
    [TypeError]. On a filter bank the per-utterance standardization never
    fails, whatever the shape, zero frames included; the call returns exactly
    when the lengths of the global mean and standard deviation broadcast
    against the bins, and raises a [RuntimeError] otherwise. *)
Theorem normalize_fbank_errors (data : gmap string (value scalar opaque)) :
  (data !! "fbank"%string = None →
     normalize_fbank data = Raise (KeyError "fbank"))
  ∧ (∀ o, data !! "fbank"%string = Some (VOpaque o) →
       normalize_fbank data = Raise TypeError)
  ∧ (∀ raw, data !! "fbank"%string = Some (VTensor raw) →
       (is_Some (broadcast_dim (shape1 raw) (len gcmvn_mean)
                 ≫= λ bins, broadcast_dim bins (len gcmvn_std))
        ↔ ∃ out, normalize_fbank data = Ok out)
       ∧ (broadcast_dim (shape1 raw) (len gcmvn_mean)
          ≫= (λ bins, broadcast_dim bins (len gcmvn_std)) = None
          ↔ normalize_fbank data = Raise RuntimeError)).
Proof.
  split_and!.
  - intros Hraw. unfold normalize_fbank, dict_lookup. by rewrite Hraw.
  - intros o Hraw. unfold normalize_fbank, dict_lookup. by rewrite Hraw.
  - intros raw Hraw.
    destruct (normalize_fbank_tensor data raw Hraw)
      as (centered & standardized & _ & _ & _ & _ & ->).
    unfold subtract, divide.
    destruct (broadcast_rows fsub raw gcmvn_mean) as [gcentered|] eqn:Egc; simpl.
    + apply broadcast_rows_Some in Egc as [_ ->]. simpl.
      destruct (broadcast_rows fdiv gcentered gcmvn_std) as [g|] eqn:Egs; simpl.
      * apply broadcast_rows_Some in Egs as [_ ->].
        split; split; intros Hx; try done; by eexists.
      * apply broadcast_rows_None in Egs as ->.
        split; split; intros Hx; try done; by destruct Hx.
    + apply broadcast_rows_None in Egc as ->. simpl.
      split; split; intros Hx; try done; by destruct Hx.
Qed.

End WithEnvironment.

Import Demo.

(** A filter bank with a single bin: the global copy gets the 80 bins of the
    statistics, the per-utterance copy keeps the one. *)
Lemma normalize_fbank_returns_witness :
  ∃ fbank gcmvn_fbank : Tensor2 Z,
    normalize_fbank {[ "fbank"%string := VTensor (mkTensor2 3 1 (λ i j, i)) ]}
    = Ok (<["gcmvn_fbank"%string := VTensor gcmvn_fbank]>
            (<["fbank"%string := VTensor fbank]>
               {[ "fbank"%string := VTensor (mkTensor2 3 1 (λ i j, i)) ]}))
    ∧ shape0 fbank = 3 ∧ shape0 gcmvn_fbank = 3
    ∧ shape1 fbank = 1 ∧ shape1 gcmvn_fbank = 80.
Proof.
  assert (Hok : ∃ out, normalize_fbank (H := demo_environment)
                  {[ "fbank"%string := VTensor (mkTensor2 3 1 (λ i j, i)) ]} = Ok out)
    by (eexists; vm_compute; reflexivity).
  destruct Hok as [out Hok].
  destruct (normalize_fbank_returns (H := demo_environment) _ out Hok)
    as (raw & fbank & gcmvn & bins & Hraw & Hout & _ & Hf0 & Hg0 & Hf1 & Hb1 & Hb2).
  rewrite lookup_singleton_eq in Hraw. injection Hraw as <-.
  exists fbank, gcmvn. rewrite Hok, Hout.
  vm_compute in Hb1. injection Hb1 as <-.
  vm_compute in Hb2. injection Hb2 as Hb2.
  split_and!; [reflexivity | exact Hf0 | exact Hg0 | exact Hf1 | by symmetry].
Defined.

(** A filter bank of 40 bins does not broadcast against 80 statistics. *)
Lemma normalize_fbank_errors_witness :
  normalize_fbank (H := demo_environment) ∅ = Raise (KeyError "fbank")
  ∧ normalize_fbank (H := demo_environment)
      {[ "fbank"%string := VTensor (mkTensor2 3 40 (λ i j, i + j)) ]}
    = Raise RuntimeError.
Proof.
  split.
  - apply (normalize_fbank_errors (H := demo_environment) ∅). apply lookup_empty.
  - destruct (normalize_fbank_errors (H := demo_environment)
                {[ "fbank"%string := VTensor (mkTensor2 3 40 (λ i j, i + j)) ]})
      as (_ & _ & Htensor).
    destruct (Htensor (mkTensor2 3 40 (λ i j, i + j))) as [_ Hfail].
    + apply lookup_singleton_eq.
    + apply Hfail. reflexivity.
Defined.

End NormalizeMore.

(** ** More about [run] *)

Module RunMore.
Import Languages Tensor Exn Values Effects Contracts App Interface.
Import LanguagesFacts EffectsFacts PreprocessFacts NormalizeFacts RunFacts.

(** After [run_cases]: the result of [preprocess_audio] on the same input, by
    the equation that the case at hand has for the loading of the file. *)
Ltac preprocess_known :=
  rewrite ?preprocess_audio_cases in *;
  repeat match goal with
         | E : _ ≫= torchaudio_load _ = _ |- _ => rewrite !E in *; clear E
         end;
  simpl in *.

Section WithEnvironment.
Context `{Environment}.

Lemma load_ok_dom path (fs : gmap string bytes) r :
  fs !! path ≫= torchaudio_load path = Some r → path ∈ dom fs.
Proof.
  intros Hload. apply elem_of_dom.
  destruct (fs !! path); [by eexists | done].
Qed.

(** X9. Whatever its outcome, [run] changes no file other than the input
    file and the temporary file that [tempfile] names for the file system that
    preprocessing leaves; it removes no file and adds at most that one. *)
Theorem run_footprint path target_language (fs : gmap string bytes) :
  (∀ other,
     other ≠ path →
     other ≠ NamedTemporaryFile ".wav" (files (preprocess_audio path fs)) →
     files (run path target_language fs) !! other = fs !! other)
  ∧ dom fs ⊆ dom (files (run path target_language fs))
  ∧ dom (files (run path target_language fs))
    ⊆ dom fs ∪ {[NamedTemporaryFile ".wav" (files (preprocess_audio path fs))]}.
Proof.
  split_and!.
  - intros other Hpath Htemp. run_cases; preprocess_known.
    all: by rewrite ?lookup_insert_ne.
  - run_cases; rewrite ?dom_insert_L.
    all: repeat apply union_subseteq_r'; reflexivity.
  - run_cases.
    all: try match goal with
           | E : _ ≫= torchaudio_load _ = Some _ |- _ =>
               pose proof (load_ok_dom _ _ _ E) as Hdom
           end.
    all: preprocess_known; rewrite ?dom_insert_L.
    all: repeat apply union_least;
      first [ apply union_subseteq_l
            | apply union_subseteq_r
            | apply union_subseteq_l', singleton_subseteq_l, Hdom ].
Qed.

(** X10. A call of [run] that raises an [IndexError] (the synthesizer gave
    no waveform, or the translator no text) has already created its temporary
    file, and that file is left in the file system. *)
Theorem run_index_error_leaves_temp_file path target_language (fs : gmap string bytes) :
  returned (run path target_language fs) = Raise IndexError →
  TempFileCreated (NamedTemporaryFile ".wav" (files (preprocess_audio path fs)))
    ∈ events (run path target_language fs)
  ∧ is_Some (files (run path target_language fs)
             !! NamedTemporaryFile ".wav" (files (preprocess_audio path fs))).
Proof.
  intros Hret. revert Hret.
  run_cases; intros Hret; simplify_eq; raise_origin; preprocess_known.
  all: rewrite lookup_insert_eq; split; [|by eexists].
  all: apply elem_of_app; right.
  all: do 2 apply list_elem_of_further; apply list_elem_of_here.
Qed.

(** X11. A call of [run] that returns [(out, text)] has resolved the target
    language to a code, given that code to the translator and to the vocoder,
    and returns the first text of the translator. Its events are those of
    preprocessing followed by the translator call, the vocoder call, the
    creation of [out] and the save of [out] at the sample rate of the
    synthesizer; its files are those that preprocessing left, with [out]
    holding the encoded waveform. *)
Theorem run_returns path target_language (fs : gmap string bytes) out text :
  returned (run path target_language fs) = Ok (out, text) →
  ∃ code args text_output unit_output speech_output wav,
    LANGUAGE_NAME_TO_CODE !! target_language = Some code
    ∧ tgt_lang args = code
    ∧ translator_predict args = Some (text_output, unit_output)
    ∧ text_output !! 0%nat = Some text
    ∧ pretssel_generator_predict (units unit_output) code (prosody_encoder_input args)
      = Some speech_output
    ∧ audio_wavs speech_output !! 0%nat ≫= (.!! 0%nat) = Some wav
    ∧ out = NamedTemporaryFile ".wav" (files (preprocess_audio path fs))
    ∧ returned (preprocess_audio path fs) = Ok tt
    ∧ events (run path target_language fs)
      = events (preprocess_audio path fs)
        ++ [TranslatorCall args; VocoderCall code; TempFileCreated out;
            Saved out (sample_rate speech_output)]
    ∧ files (run path target_language fs)
      = <[out := torchaudio_save out wav (sample_rate speech_output)]>
          (files (preprocess_audio path fs)).
Proof.
  intros Hret. revert Hret.
  run_cases; intros Hret; simplify_eq.
  preprocess_known.
  repeat match goal with
         | E : dict_lookup _ _ = Ok _ |- _ =>
             unfold dict_lookup in E;
             match type of E with
             | or_raise _ ?o = Ok _ => destruct o eqn:?; simplify_eq/=
             end
         | E : list_index _ _ ≫= _ = Ok _ |- _ => apply list_index2_ok in E
         | E : list_index _ _ = Ok _ |- _ =>
             unfold list_index in E;
             match type of E with
             | or_raise _ ?o = Ok _ => destruct o eqn:?; simplify_eq/=
             end
         end.
  eexists _, (mkPredictArgs _ _ _ _ _ _ _ _ _), _, _, _, _.
  simpl. split_and!; try eassumption; try reflexivity.
  by rewrite insert_insert_eq.
Qed.


(** X13. For a valid target language and an input that torchaudio loads,
    the events of [run] hold a warning exactly when the resampled waveform has
    more than 2646000 samples per channel, and then the warning is the
    message about the first 60 seconds, whether the later stages succeed or
    fail. *)
Theorem run_warns_iff_cut path target_language code (fs : gmap string bytes)
    content arr org_sr message :
  LANGUAGE_NAME_TO_CODE !! target_language = Some code →
  fs !! path = Some content →
  torchaudio_load path content = Some (arr, org_sr) →
  Warning message ∈ events (run path target_language fs)
  ↔ message = "Input audio is too long. Only the first 60 seconds is used."%string
    ∧ shape1 (torchaudio_resample arr org_sr 44100) > 60 * 44100.
Proof.
  intros Hcode Hfile Hload.
  assert (Hloaded : fs !! path ≫= torchaudio_load path = Some (arr, org_sr))
    by by rewrite Hfile.
  run_cases.
  all: try match goal with
         | E : dict_lookup LANGUAGE_NAME_TO_CODE _ = _ |- _ =>
             unfold dict_lookup in E; rewrite Hcode in E; simpl in E
         end.
  all: simplify_eq.
  all: split;
    [ intros Hin; event_in Hin; split; [by subst message | lia]
    | intros [-> Hlong]; apply elem_of_app; left;
      rewrite decide_True by lia; apply list_elem_of_here ].
Qed.

Lemma offered_languages :
  ∀ name, name ∈ EXAMPLES.*2 ∨ name = DEFAULT_TARGET_LANGUAGE →
          name ∈ TARGET_LANGUAGE_NAMES.
Proof.
  intros name [Hin | ->]; [|compute_done].
  simpl in Hin. repeat (apply elem_of_cons in Hin as [->|Hin]; [compute_done|]).
  by apply elem_of_nil in Hin.
Qed.

(** X14. When the table of languages is as the form needs it (distinct
    codes, distinct names, the six offered names among them), every target
    language that the form can send (a choice of the dropdown, its initial
    value, the language of an example row) has a code whose name it is, and
    no call of [run] for it raises the [KeyError] of the language lookup. *)
Theorem run_offered_language target_language :
  code_to_name_table_ok LANGUAGE_CODE_TO_NAME →
  target_language ∈ TARGET_LANGUAGE_NAMES
  ∨ target_language ∈ EXAMPLES.*2
  ∨ target_language = DEFAULT_TARGET_LANGUAGE →
  ∃ code,
    LANGUAGE_NAME_TO_CODE !! target_language = Some code
    ∧ dict_get LANGUAGE_CODE_TO_NAME code = Some target_language
    ∧ ∀ path fs,
        returned (run path target_language fs) ≠ Raise (KeyError target_language).
Proof.
  intros (Hcodes & Hnames & Hoffered) Hform.
  assert (Hin : target_language ∈ TARGET_LANGUAGE_NAMES).
  { destruct Hform as [Hin|Hform]; [done|]. by apply offered_languages. }
  assert (Hnf : "fbank"%string ∉ TARGET_LANGUAGE_NAMES) by compute_done.
  assert (Hng : "gcmvn_fbank"%string ∉ TARGET_LANGUAGE_NAMES) by compute_done.
  pose proof (Hoffered _ Hin) as Hvalue.
  apply list_elem_of_fmap in Hvalue as ([code name] & Hname & Hitem).
  simpl in Hname. subst name.
  assert (Hcode : LANGUAGE_NAME_TO_CODE !! target_language = Some code).
  { by apply invert_dict_lookup. }
  exists code. split_and!.
  - exact Hcode.
  - by apply dict_get_elem.
  - intros path fs. run_cases; intros Hret; simplify_eq.
    all: try match goal with
           | E : dict_lookup LANGUAGE_NAME_TO_CODE _ = _ |- _ =>
               unfold dict_lookup in E; rewrite Hcode in E; simpl in E
           end.
    all: simplify_eq; raise_origin; contradiction.
Qed.




End WithEnvironment.

Import Demo DemoMute.

(** The other recordings are untouched by a request for the short one. *)
Lemma run_footprint_witness :
  files (run "/in/short.wav" "French" demo_files) !! "/in/long.wav"%string
  = Some long_wav.
Proof.
  destruct (run_footprint (H := demo_environment) "/in/short.wav" "French" demo_files)
    as [Hother _].
  rewrite Hother; [reflexivity | discriminate | vm_compute; discriminate].
Defined.

Lemma run_index_error_leaves_temp_file_witness :
  returned (run (H := mute_environment) "/in/short.wav" "French" demo_files)
  = Raise IndexError
  ∧ TempFileCreated
      (NamedTemporaryFile (Environment := mute_environment) ".wav"
         (files (preprocess_audio (H := mute_environment) "/in/short.wav" demo_files)))
    ∈ events (run (H := mute_environment) "/in/short.wav" "French" demo_files)
  ∧ is_Some
      (files (run (H := mute_environment) "/in/short.wav" "French" demo_files)
       !! NamedTemporaryFile (Environment := mute_environment) ".wav"
            (files (preprocess_audio (H := mute_environment) "/in/short.wav" demo_files))).
Proof.
  assert (Hret : returned (run (H := mute_environment) "/in/short.wav" "French" demo_files)
                 = Raise IndexError) by (vm_compute; reflexivity).
  split; [exact Hret|].
  exact (run_index_error_leaves_temp_file (H := mute_environment)
           "/in/short.wav" "French" demo_files Hret).
Defined.

Lemma run_returns_witness :
  ∃ args : PredictArgs Z,
    tgt_lang args = "fra"%string
    ∧ events (run "/in/short.wav" "French" demo_files)
      = [Saved "/in/short.wav" 44100; TranslatorCall args; VocoderCall "fra";
         TempFileCreated "/tmp/tmp5.wav"; Saved "/tmp/tmp5.wav" 24000].
Proof.
  destruct (run_returns (H := demo_environment) "/in/short.wav" "French" demo_files
              "/tmp/tmp5.wav" "fra:1000")
    as (code & args & texts & unit_output & speech & wav & Hcode & Hlang & Htr & _
        & Hvoc & _ & _ & _ & Hevents & _).
  - vm_compute. reflexivity.
  - exists args. vm_compute in Hcode. injection Hcode as <-.
    split; [exact Hlang|]. rewrite Hevents.
    vm_compute in Hvoc. injection Hvoc as <-. reflexivity.
Defined.


(** The ninety seconds are cut and the translator then fails or not: the
    warning is there. *)
Lemma run_warns_iff_cut_witness :
  Warning "Input audio is too long. Only the first 60 seconds is used."
    ∈ events (run "/in/long.wav" "French" demo_files)
  ∧ Warning "Input audio is too long. Only the first 60 seconds is used."
    ∉ events (run "/in/short.wav" "French" demo_files).
Proof.
  split.
  - apply (run_warns_iff_cut (H := demo_environment) "/in/long.wav" "French" "fra"
             demo_files long_wav (silence 1 1440000) 16000).
    + vm_compute. reflexivity.
    + reflexivity.
    + reflexivity.
    + split; [reflexivity | reflexivity].
  - intros Hin.
    apply (run_warns_iff_cut (H := demo_environment) "/in/short.wav" "French" "fra"
             demo_files short_wav (silence 1 160000) 16000) in Hin.
    + destruct Hin as [_ Hlong]. vm_compute in Hlong. discriminate.
    + vm_compute. reflexivity.
    + reflexivity.
    + reflexivity.
Defined.

Lemma run_offered_language_witness :
  ∃ code,
    LANGUAGE_NAME_TO_CODE !! "Mandarin Chinese"%string = Some code
    ∧ dict_get demo_table code = Some "Mandarin Chinese"%string
    ∧ returned (run "/in/short.wav" "Mandarin Chinese" demo_files)
      ≠ Raise (KeyError "Mandarin Chinese").
Proof.
  destruct (run_offered_language (H := demo_environment) "Mandarin Chinese")
    as (code & Hcode & Hname & Hrun).
  - exact demo_table_ok.
  - right. left. compute_done.
  - exists code. split_and!; [exact Hcode | exact Hname | apply Hrun].
Defined.


End RunMore.

(** ** Repeated calls of [run] *)

Module RunRepeated.
Import Languages Tensor Exn Values Effects Contracts App.
Import EffectsFacts PreprocessFacts NormalizeFacts RunFacts RunMore.

Section WithEnvironment.
Context `{Environment}.


End WithEnvironment.

Import Demo DemoPad.



End RunRepeated.
